(** * The EXAMPLE service template ([EXAMPLE/__init__.py])

    The file declares one class, [SERVICE_TAG(Service)], whose base class
    [Service] is provided by the host framework ([devine.core.service]) and
    is not part of the repository.  The class is embedded as functions in a
    state-and-exception monad over an object heap.  The two base-class
    methods reached through [super()] are parameters of the development
    (class [Host]).  What the code of the class itself does (an instance
    made, an attribute assigned, a base method called) is recorded on a
    trace, so that "calls the base exactly once" and "assigns before it
    calls" are statements about the trace.

    Annotations are not checked when Python runs; they are kept as data
    ([returns]) and compared with the values returned.  The nested class
    [ServiceApiWrapper], whose body is [...], has no method and is left
    out. *)

From stdpp Require Import base option list gmap strings.

Set Warnings "-register-all".

(** ** Python values, objects and the heap *)

Module Py.

(** Heap addresses: the index of the object in the heap. *)
Definition addr := nat.

Inductive PyVal :=
| VNone
| VEllipsis
| VBool (b : bool)
| VInt (z : Z)
| VStr (s : string)
| VBytes (b : list Byte.byte)
| VList (l : list PyVal)
| VRef (a : addr).

(** An instance: the name of its class and its [__dict__]. *)
Record obj := Obj { cls : string; attrs : gmap string PyVal }.

Abbreviation Heap := (list obj).

Inductive PyExc :=
| TypeError
| EnvironmentError
| OtherError (name : string).

Inductive outcome (A : Type) :=
| Normal (a : A)
| Raised (e : PyExc).
Arguments Normal {A} a.
Arguments Raised {A} e.

(** [o.name = v]: the object at [a] gets the attribute; the heap has no
    object to update when [a] is not allocated. *)
Definition set_attr (a : addr) (name : string) (v : PyVal) (h : Heap) : Heap :=
  match h !! a with
  | Some o => <[a := Obj (cls o) (<[name := v]> (attrs o))]> h
  | None => h
  end.

Definition get_attr (a : addr) (name : string) (h : Heap) : option PyVal :=
  match h !! a with
  | Some o => attrs o !! name
  | None => None
  end.

(** [object.__new__(cls)]: a new instance with an empty [__dict__], placed
    at the next free address. *)
Definition alloc (c : string) (h : Heap) : addr * Heap :=
  (length h, h ++ [Obj c ∅]).

(** Return annotations, as written in the source. *)
Inductive hint :=
| HNone
| HStr
| HBytes
| HClass (name : string)
| HList (elt : hint)
| HUnion (l r : hint)
| HOptional (t : hint).

(** The classes an instance of class [c] is an instance of, as far as the
    file shows: the class itself and [object], and for the class the file
    declares, [class SERVICE_TAG(Service)], its base.  The bases of
    [Service] and of the other classes of the host are not in the file. *)
Definition mro (c : string) : list string :=
  if bool_decide (c = "SERVICE_TAG")
  then ["SERVICE_TAG"; "Service"; "object"]
  else [c; "object"].

(** [isinstance(v, c)] for a class [c] named in the file; a value that is
    not an instance on the heap ([None], a string, ...) is of a built-in
    class, of which the file names none but [object]. *)
Definition instance_of (h : Heap) (v : PyVal) (c : string) : bool :=
  match v with
  | VRef a => match h !! a with
              | Some o => bool_decide (c ∈ mro (cls o))
              | None => false
              end
  | _ => bool_decide (c = "object")
  end.

(** Whether value [v] is of the annotated type. *)
Fixpoint conforms (h : Heap) (t : hint) (v : PyVal) : bool :=
  match t with
  | HNone => match v with VNone => true | _ => false end
  | HStr => match v with VStr _ => true | _ => false end
  | HBytes => match v with VBytes _ => true | _ => false end
  | HClass c => instance_of h v c
  | HList elt => match v with
                 | VList l => forallb (conforms h elt) l
                 | _ => false
                 end
  | HUnion l r => conforms h l v || conforms h r v
  | HOptional t' => match v with VNone => true | _ => conforms h t' v end
  end.

End Py.
Import Py.

(** ** Events and the host framework *)

(** What the code of the class does to the world around it, in the order it
    does it: an instance is created, an attribute is assigned, a base-class
    method is reached through [super()]. *)
Inductive event :=
| EvNew (c : string) (a : addr)
| EvSetAttr (self : addr) (name : string) (v : PyVal)
| EvSuper (meth : string) (self : addr) (args : list PyVal).

(** What the host provides: its own state (session, configuration, network,
    ...) and the two methods of [Service] that [SERVICE_TAG] calls.  A base
    method receives [self] and its arguments, may read and change the heap
    and the host state, and returns or raises. *)
Class Host := {
  HostState : Type;
  Service___init__ :
    addr -> PyVal -> Heap * HostState -> outcome PyVal * (Heap * HostState);
  Service_authenticate :
    addr -> PyVal -> PyVal -> Heap * HostState -> outcome PyVal * (Heap * HostState)
}.

(** ** The monad of method bodies *)

Section Monad.

Context {H : Host}.

Record State := St { heap : Heap; host : HostState; trace : list event }.

Definition M (A : Type) := State -> outcome A * State.

Definition ret {A} (a : A) : M A := fun st => (Normal a, st).

Definition raise {A} (e : PyExc) : M A := fun st => (Raised e, st).

Definition bind {A B} (m : M A) (k : A -> M B) : M B :=
  fun st => match m st with
            | (Normal a, st') => k a st'
            | (Raised e, st') => (Raised e, st')
            end.

(** [self.name = v] *)
Definition setattr (self : addr) (name : string) (v : PyVal) : M unit :=
  fun st => (Normal tt, St (set_attr self name v (heap st)) (host st)
                           (trace st ++ [EvSetAttr self name v])).

(** [cls.__new__(cls)] *)
Definition new (c : string) : M addr :=
  fun st => let '(a, h) := alloc c (heap st) in
            (Normal a, St h (host st) (trace st ++ [EvNew c a])).

(** A call through [super()]: logged, then run by the host. *)
Definition call_super (meth : string) (self : addr) (args : list PyVal)
    (f : Heap * HostState -> outcome PyVal * (Heap * HostState)) : M PyVal :=
  fun st => let '(r, (h, hs)) := f (heap st, host st) in
            (r, St h hs (trace st ++ [EvSuper meth self args])).

#[global] Instance M_ret : MRet M := @ret.
#[global] Instance M_bind : MBind M := fun A B k m => bind m k.

(** An expression statement: the value is dropped. *)
Definition expr_stmt {A} (m : M A) : M unit := m ;; mret tt.

(** The literal [...] *)
Definition Ellipsis : M PyVal := mret VEllipsis.

End Monad.


(** ** Calling a Python function *)

(** Binding of the arguments of a call to [f] to the named
    parameters [names] of [f]: positional arguments fill the parameters from
    the left, the others are taken from the keywords.  The result is the
    value of each parameter and the keywords left over.  [None] stands for
    the [TypeError] of a call that does not fit: too many positional
    arguments, a parameter given twice, a parameter missing. *)
Fixpoint bind_named (names : list string) (args : list PyVal)
    (kwargs : gmap string PyVal) : option (list PyVal * gmap string PyVal) :=
  match names, args with
  | [], [] => Some ([], kwargs)
  | [], _ :: _ => None
  | n :: names', a :: args' =>
      match kwargs !! n with
      | Some _ => None
      | None => '(vs, rest) ← bind_named names' args' kwargs; Some (a :: vs, rest)
      end
  | n :: names', [] =>
      v ← kwargs !! n;
      '(vs, rest) ← bind_named names' [] (delete n kwargs);
      Some (v :: vs, rest)
  end.

(** [var_kw] tells whether the signature ends in [**kwargs]; without it a
    keyword that names no parameter is a [TypeError] too. *)
Definition bind_args (names : list string) (var_kw : bool) (args : list PyVal)
    (kwargs : gmap string PyVal) : option (list PyVal * gmap string PyVal) :=
  '(vs, rest) ← bind_named names args kwargs;
  if var_kw || bool_decide (rest = ∅) then Some (vs, rest) else None.

(** ** The part of [click] the class uses *)

Module click.
Section click.

Context {H : Host}.

Inductive param_kind := Argument | Option.

Record param := Param { p_kind : param_kind; p_name : string; p_type : hint }.

(** A callback receives the current context and the parsed parameters. *)
Definition Callback := PyVal -> gmap string PyVal -> M PyVal.

(** A function under decoration: [__click_params__] collects the parameters
    attached so far, innermost decorator first. *)
Record Decorated := Fn { fn : Callback; click_params : list param }.

Record Command := Cmd {
  name : string;
  short_help : string;
  help : list string;
  params : list param;
  callback : Callback
}.

(** [@click.pass_context] on [f(ctx, **kwargs)]: the wrapper calls [f] with
    the current context as first positional argument. *)
Definition pass_context (f : list PyVal -> gmap string PyVal -> M PyVal) : Decorated :=
  Fn (fun ctx kwargs => f [ctx] kwargs) [].

(** [@click.argument(name, type=ty)] *)
Definition argument (n : string) (ty : hint) (f : Decorated) : Decorated :=
  Fn (fn f) (click_params f ++ [Param Argument n ty]).

(** [@click.command(name=..., short_help=..., help=...)]: the parameters are
    listed in the order the decorators are written. *)
Definition command (n sh : string) (h : list string) (f : Decorated) : Command :=
  Cmd n sh h (rev (click_params f)) (fn f).

End click.
End click.

(** ** The class [SERVICE_TAG] *)

Module SERVICE_TAG.
Section SERVICE_TAG.

Context {H : Host}.

Definition __name__ : string := "SERVICE_TAG".

(** The class docstring, line by line as the string literal has them: an
    empty first line after the opening quotes, the indentation of the class
    body, and the indentation before the closing quotes as last line.  The
    escape written backslash-b in it is the backspace character. *)
Definition backspace : string := String (Ascii.ascii_of_nat 8) EmptyString.

Definition __doc__ : list string :=
  [ "";
    "    Service code for <Company>'s <Service Name> <Service Type> service (<main short link>).";
    "";
    "    " +:+ backspace;
    "    Authorization: Cookies (or Credentials, or both, or None)";
    "    Robustness:";
    "      Widevine:";
    "        L1: 1080p";
    "        L3: 576p";
    "      PlayReady:";
    "        SL3: 2160p (whitelisted)";
    "        SL2: 1080p";
    "        SL150: 576p";
    "";
    "    " +:+ backspace;
    "    Tips: - In this format, you may specify Service-specific tips";
    "          - The " +:+ backspace +:+ " at the start is to force the help-string to be rendered as-is with line breaks";
    "          - Only specify short and sweet tips here, anything more should be a dedicated paragraph";
    "          - All references to 'SERVICE_TAG' (e.g., this classes name) should be the cased service";
    "            tag e.g., 'DSNP' not 'DisneyPlus' or 'dsnp', 'iT' not 'iTunes' or 'IT'.";
    "          - If you have a question about something, look at other services and see if they answer";
    "            your question by example.";
    "    " ].

Definition ALIASES : list string := ["fullname"; "altname"; "commonname"; "and so on..."].

Definition GEOFENCE : list string := ["us"].

(** The string literal that ends the body of [__init__]: an expression
    statement, evaluated and dropped.  Its lines, with the indentation they
    have in the file. *)
Definition newline : string := String (Ascii.ascii_of_nat 10) EmptyString.

Definition constructor_layout_note : string :=
  String.concat newline
  [ "";
    "        From this point on the service constructor can be used for whatever you wish. My recommendations";
    "        are to keep the constructor in the following layout with a line-break spacing them out.";
    "";
    "        - <Store arguments to a class instance variable>";
    "        - <Call the super() constructor call, passing the current click context>";
    "        - <Get and store any parent-arguments from ctx.parent.params>";
    "        - <Get and store any data from the Click context (ctx.obj)>";
    "        - <Define any service-specific class instance variables>";
    "        - <Write any service-specific initialization code. E.g., grabbing data from a Config endpoint>";
    "          The constructor should not contain any login related code, whatsoever. You may deal with";
    "          acquiring Device authorization bearers, but anything needing cookies or a login should";
    "          NOT be in here! Use `authorize()` for that instead. Alterations or verification of";
    "          arguments and their values/types should be done here.";
    "";
    "        Overall, the constructor should be quick to read. If it has become long, you should likely";
    "        move some of the service-specific code to a function and call that instead.";
    "";
    "        When defining class instance variables, I recommend defining it WITHOUT a default value.";
    "        If the default value is never actually used, then what's the point? Even a default of";
    "        `None` is very pointless. Type-hint it with the type you expect to set it to further down";
    "        the stack instead. This provides the benefit of a single possibility of type in type-hints.";
    "";
    "        Avoid just moving a large proportion of the constructor to a function, e.g., a `configure()`.";
    "        This is pointless and unnecessary. By design that seems like there's two functions to deal";
    "        with constructor. Instead do multiple smaller functions.";
    "        " ].

(** [def __init__(self, ctx, title)] *)
Definition __init__ (self : addr) (ctx title : PyVal) : M PyVal :=
  setattr self "title" title;;
  expr_stmt (call_super "__init__" self [ctx] (Service___init__ self ctx));;
  expr_stmt (mret (VStr constructor_layout_note));;
  mret VNone.

(** The call [SERVICE_TAG( *args, **kwargs)]: a new instance is made, the
    arguments are bound to the parameters of [__init__] after [self], the
    initializer runs, and the instance is the value of the call. *)
Definition construct (args : list PyVal) (kwargs : gmap string PyVal) : M PyVal :=
  self ← new __name__;
  match bind_args ["ctx"; "title"] false args kwargs with
  | Some ([ctx; title], _) => __init__ self ctx title;; mret (VRef self)
  | _ => raise TypeError
  end.

(** [def cli(ctx, **kwargs)], before decoration. *)
Definition cli_def (args : list PyVal) (kwargs : gmap string PyVal) : M PyVal :=
  match bind_args ["ctx"] true args kwargs with
  | Some ([ctx], kwargs) => construct [ctx] kwargs
  | _ => raise TypeError
  end.

(** [cli] as the class holds it, under its three [click] decorators;
    [@staticmethod] hands the command out as it is. *)
Definition cli : click.Command :=
  click.command "SERVICE_TAG" "https://website.com" __doc__
    (click.argument "title" HStr
      (click.pass_context cli_def)).

(** [def get_session(self)] *)
Definition get_session (self : addr) : M PyVal :=
  expr_stmt Ellipsis;;
  mret VNone.

(** [def authenticate(self, cookies=None, credential=None)]; an argument
    left out is [VNone]. *)
Definition authenticate (self : addr) (cookies credential : PyVal) : M PyVal :=
  expr_stmt (call_super "authenticate" self [cookies; credential]
               (Service_authenticate self cookies credential));;
  expr_stmt Ellipsis;;
  mret VNone.

(** [def get_titles(self)] *)
Definition get_titles (self : addr) : M PyVal :=
  expr_stmt Ellipsis;;
  mret VNone.

(** [def get_tracks(self, title)] *)
Definition get_tracks (self : addr) (title : PyVal) : M PyVal :=
  expr_stmt Ellipsis;;
  mret VNone.

(** [def get_chapters(self, title)] *)
Definition get_chapters (self : addr) (title : PyVal) : M PyVal :=
  expr_stmt Ellipsis;;
  mret VNone.

(** [def get_widevine_service_certificate(self, *, challenge, title, track)] *)
Definition get_widevine_service_certificate (self : addr)
    (challenge title track : PyVal) : M PyVal :=
  expr_stmt Ellipsis;;
  mret VNone.

(** [def get_widevine_license(self, *, challenge, title, track)] *)
Definition get_widevine_license (self : addr)
    (challenge title track : PyVal) : M PyVal :=
  expr_stmt Ellipsis;;
  mret VNone.

(** [def get_api_config_data(self, device_id, version)] *)
Definition get_api_config_data (self : addr) (device_id version : PyVal) : M PyVal :=
  expr_stmt Ellipsis;;
  mret VNone.

(** *** The methods, their annotations and their calls *)

Inductive method :=
| m_cli
| m___init__
| m_get_session
| m_authenticate
| m_get_titles
| m_get_tracks
| m_get_chapters
| m_get_widevine_service_certificate
| m_get_widevine_license
| m_get_api_config_data.

#[global] Instance method_eq_dec : EqDecision method.
Proof. solve_decision. Defined.

(** The return annotation of each [def], where it has one. *)
Definition returns (m : method) : option hint :=
  match m with
  | m_cli => Some (HClass "SERVICE_TAG")
  | m___init__ => None
  | m_get_session => Some (HClass "Session")
  | m_authenticate => Some HNone
  | m_get_titles => Some (HUnion (HClass "Movies") (HClass "Series"))
  | m_get_tracks => Some (HClass "Tracks")
  | m_get_chapters => Some (HList (HClass "Chapter"))
  | m_get_widevine_service_certificate => Some (HUnion HBytes HStr)
  | m_get_widevine_license => Some (HOptional (HUnion HBytes HStr))
  | m_get_api_config_data => None
  end.

(** The methods listed under the comment [# Required methods:]. *)
Definition required (m : method) : bool :=
  match m with
  | m_get_titles | m_get_tracks | m_get_chapters
  | m_get_widevine_service_certificate | m_get_widevine_license => true
  | _ => false
  end.

(** The methods whose body is more than [...]. *)
Definition has_statements (m : method) : bool :=
  match m with
  | m_cli | m___init__ | m_authenticate => true
  | _ => false
  end.

(** A call of a method of the class, with arguments that fit its signature. *)
Inductive call :=
| Call_cli (ctx : PyVal) (kwargs : gmap string PyVal)
| Call___init__ (self : addr) (ctx title : PyVal)
| Call_get_session (self : addr)
| Call_authenticate (self : addr) (cookies credential : PyVal)
| Call_get_titles (self : addr)
| Call_get_tracks (self : addr) (title : PyVal)
| Call_get_chapters (self : addr) (title : PyVal)
| Call_get_widevine_service_certificate (self : addr) (challenge title track : PyVal)
| Call_get_widevine_license (self : addr) (challenge title track : PyVal)
| Call_get_api_config_data (self : addr) (device_id version : PyVal).

Definition method_of (c : call) : method :=
  match c with
  | Call_cli _ _ => m_cli
  | Call___init__ _ _ _ => m___init__
  | Call_get_session _ => m_get_session
  | Call_authenticate _ _ _ => m_authenticate
  | Call_get_titles _ => m_get_titles
  | Call_get_tracks _ _ => m_get_tracks
  | Call_get_chapters _ _ => m_get_chapters
  | Call_get_widevine_service_certificate _ _ _ _ => m_get_widevine_service_certificate
  | Call_get_widevine_license _ _ _ _ => m_get_widevine_license
  | Call_get_api_config_data _ _ _ => m_get_api_config_data
  end.

Definition invoke (c : call) : M PyVal :=
  match c with
  | Call_cli ctx kwargs => click.callback cli ctx kwargs
  | Call___init__ self ctx title => __init__ self ctx title
  | Call_get_session self => get_session self
  | Call_authenticate self cookies credential => authenticate self cookies credential
  | Call_get_titles self => get_titles self
  | Call_get_tracks self title => get_tracks self title
  | Call_get_chapters self title => get_chapters self title
  | Call_get_widevine_service_certificate self challenge title track =>
      get_widevine_service_certificate self challenge title track
  | Call_get_widevine_license self challenge title track =>
      get_widevine_license self challenge title track
  | Call_get_api_config_data self device_id version =>
      get_api_config_data self device_id version
  end.

End SERVICE_TAG.
End SERVICE_TAG.

(** ** A host to run the class against *)

(** The least a base class can do: both methods return [None] at once and
    touch nothing. *)
Definition quiet_host : Host := {|
  HostState := unit;
  Service___init__ := fun _ _ w => (Normal VNone, w);
  Service_authenticate := fun _ _ _ w => (Normal VNone, w)
|}.

(** A base class that insists on credentials: [authenticate] raises
    [EnvironmentError] when both arguments are [None]. *)
Definition strict_host : Host := {|
  HostState := unit;
  Service___init__ := fun _ _ w => (Normal VNone, w);
  Service_authenticate := fun _ cookies credential w =>
    match cookies, credential with
    | VNone, VNone => (Raised EnvironmentError, w)
    | _, _ => (Normal VNone, w)
    end
|}.

Definition empty_state {H : Host} (hs : HostState) : State := St [] hs [].

(** ** Vocabulary of the statements *)

Import SERVICE_TAG.

(** The value a method returns after a call through [super()]: that of the
    method when the base returns, the exception of the base otherwise. *)
Definition after_super (r : outcome PyVal) (v : PyVal) : outcome PyVal :=
  match r with
  | Normal _ => Normal v
  | Raised e => Raised e
  end.

(** The number of calls of the base method [meth] on a trace. *)
Definition is_super (meth : string) (e : event) : bool :=
  match e with
  | EvSuper m _ _ => bool_decide (m = meth)
  | _ => false
  end.

Definition count_super (meth : string) (t : list event) : nat :=
  length (filter (fun e => is_super meth e = true) t).

(** A computation returns a value of the annotated type. *)
Definition returns_as {H : Host} (m : M PyVal) (t : hint) (st : State) : Prop :=
  exists v, (m st).1 = Normal v /\ conforms (heap (m st).2) t v = true.

(** The classes the file refers to and does not define: those of its imports
    and annotations. *)
Definition referenced_types : list string :=
  ["MozillaCookieJar"; "Context"; "Session"; "AnyTrack"; "Service";
   "Movies"; "Series"; "Chapter"; "Tracks"; "Credential"].

(** The three things the code of the class does: it makes a [SERVICE_TAG],
    assigns [title], and reaches [__init__] and [authenticate] of the base. *)
Definition own_event (e : event) : bool :=
  match e with
  | EvNew c _ => bool_decide (c = "SERVICE_TAG")
  | EvSetAttr _ n _ => bool_decide (n = "title")
  | EvSuper m _ _ => bool_decide (m = "__init__") || bool_decide (m = "authenticate")
  end.

(** Nothing created of the referenced types, no instance changed. *)
Definition touches_nothing {H : Host} (st st' : State) : Prop :=
  heap st' = heap st /\
  forall c a, c ∈ referenced_types -> EvNew c a ∈ trace st' -> EvNew c a ∈ trace st.

(** The three ways to give [__init__] its context and its title: both by
    position, the title by keyword, both by keyword. *)
Definition accepted (args : list PyVal) (kwargs : gmap string PyVal)
    (ctx title : PyVal) : Prop :=
  (args = [ctx; title] /\ kwargs = ∅) \/
  (args = [ctx] /\ kwargs = {["title" := title]}) \/
  (args = [] /\ kwargs = {["ctx" := ctx; "title" := title]}).

(** The run of a constructor call whose arguments fit: the instance is made
    with its title, the base initializer runs, the instance is returned. *)
Definition run_accepted {H : Host} (ctx title : PyVal) (st : State)
    : outcome PyVal * State :=
  let a := length (heap st) in
  let h0 := heap st ++ [Obj "SERVICE_TAG" {["title" := title]}] in
  let '(r, (h, hs)) := Service___init__ a ctx (h0, host st) in
  (after_super r (VRef a),
   St h hs (trace st ++ [EvNew "SERVICE_TAG" a; EvSetAttr a "title" title;
                         EvSuper "__init__" a [ctx]])).

(** The run of a constructor call whose arguments do not fit: the instance
    is made, and the call of [__init__] on it is a [TypeError]. *)
Definition run_rejected {H : Host} (st : State) : outcome PyVal * State :=
  (Raised TypeError,
   St (heap st ++ [Obj "SERVICE_TAG" ∅]) (host st)
      (trace st ++ [EvNew "SERVICE_TAG" (length (heap st))])).

(** * Properties *)

(** ** The heap *)

Lemma get_set_attr (a : addr) (n : string) (v : PyVal) (h : Heap) (o : obj) :
  h !! a = Some o -> get_attr a n (set_attr a n v h) = Some v.
Proof.
  intros Ho. unfold get_attr, set_attr. rewrite Ho.
  rewrite list_lookup_insert_eq by (eapply lookup_lt_Some; eassumption).
  simpl. apply lookup_insert_eq.
Qed.

Lemma lookup_alloc (c : string) (h : Heap) :
  (alloc c h).2 !! (alloc c h).1 = Some (Obj c ∅).
Proof. unfold alloc; simpl. apply list_lookup_middle. reflexivity. Qed.

Lemma set_attr_alloc (c n : string) (v : PyVal) (h : Heap) :
  set_attr (length h) n v (h ++ [Obj c ∅]) = h ++ [Obj c {[n := v]}].
Proof.
  unfold set_attr. rewrite list_lookup_middle by reflexivity. simpl.
  rewrite insert_app_r_alt by lia. rewrite Nat.sub_diag. simpl.
  by rewrite insert_empty.
Qed.

(** ** Argument binding *)

Lemma bind_init_positional (ctx title : PyVal) :
  bind_args ["ctx"; "title"] false [ctx; title] ∅ = Some ([ctx; title], ∅).
Proof. reflexivity. Qed.

Lemma bind_init_keyword (ctx title : PyVal) :
  bind_args ["ctx"; "title"] false [ctx] {["title" := title]}
  = Some ([ctx; title], ∅).
Proof.
  unfold bind_args, bind_named.
  rewrite lookup_singleton_ne by discriminate.
  rewrite lookup_singleton_eq. simpl.
  rewrite delete_singleton_eq. simpl.
  by rewrite bool_decide_eq_true_2.
Qed.

Lemma bind_cli (ctx : PyVal) (kwargs : gmap string PyVal) :
  kwargs !! "ctx" = None ->
  bind_args ["ctx"] true [ctx] kwargs = Some ([ctx], kwargs).
Proof. intros Hk. unfold bind_args, bind_named. by rewrite Hk. Qed.

Lemma bind_cli_clash (ctx v : PyVal) (kwargs : gmap string PyVal) :
  kwargs !! "ctx" = Some v ->
  bind_args ["ctx"] true [ctx] kwargs = None.
Proof. intros Hk. unfold bind_args, bind_named. by rewrite Hk. Qed.

(** ** What each body does, step by step *)

Section Runs.

Context {H : Host}.

Lemma placeholder_run (st : State) :
  (expr_stmt Ellipsis;; mret VNone) st = (Normal VNone, st).
Proof. reflexivity. Qed.

Lemma init_run (self : addr) (ctx title : PyVal) (st : State) :
  __init__ self ctx title st =
  let h0 := set_attr self "title" title (heap st) in
  let '(r, (h, hs)) := Service___init__ self ctx (h0, host st) in
  (after_super r VNone,
   St h hs (trace st ++ [EvSetAttr self "title" title; EvSuper "__init__" self [ctx]])).
Proof.
  unfold __init__, expr_stmt, call_super, setattr, mbind, M_bind, bind, mret, M_ret, ret.
  simpl.
  destruct (Service___init__ self ctx _) as [r [h hs]].
  rewrite <- app_assoc. simpl. by destruct r.
Qed.

Lemma authenticate_run (self : addr) (cookies credential : PyVal) (st : State) :
  authenticate self cookies credential st =
  let '(r, (h, hs)) := Service_authenticate self cookies credential (heap st, host st) in
  (after_super r VNone,
   St h hs (trace st ++ [EvSuper "authenticate" self [cookies; credential]])).
Proof.
  unfold authenticate, expr_stmt, call_super, Ellipsis, mbind, M_bind, bind, mret, M_ret, ret.
  destruct (Service_authenticate self cookies credential _) as [r [h hs]].
  by destruct r.
Qed.

(** The constructor call, once the arguments are bound. *)
Lemma construct_bound (args : list PyVal) (kwargs rest : gmap string PyVal)
    (ctx title : PyVal) (st : State) :
  bind_args ["ctx"; "title"] false args kwargs = Some ([ctx; title], rest) ->
  construct args kwargs st =
  let a := length (heap st) in
  let h0 := heap st ++ [Obj "SERVICE_TAG" {["title" := title]}] in
  let '(r, (h, hs)) := Service___init__ a ctx (h0, host st) in
  (after_super r (VRef a),
   St h hs (trace st ++ [EvNew "SERVICE_TAG" a; EvSetAttr a "title" title;
                         EvSuper "__init__" a [ctx]])).
Proof.
  intros Hb. unfold construct, new, alloc, __name__.
  unfold mbind at 1. unfold M_bind, bind at 1. simpl. rewrite Hb.
  unfold mbind, M_bind, bind. rewrite init_run. simpl.
  rewrite set_attr_alloc.
  destruct (Service___init__ _ ctx _) as [r [h hs]].
  rewrite <- app_assoc. simpl. by destruct r.
Qed.

Lemma cli_forwards (ctx : PyVal) (kwargs : gmap string PyVal) :
  kwargs !! "ctx" = None ->
  click.callback cli ctx kwargs = construct [ctx] kwargs.
Proof.
  intros Hk. unfold cli, click.command, click.argument, click.pass_context.
  simpl. unfold cli_def. by rewrite (bind_cli _ _ Hk).
Qed.

Lemma cli_callback_run (ctx : PyVal) (kwargs : gmap string PyVal) (st : State) :
  click.callback cli ctx kwargs st =
  match kwargs !! "ctx" with
  | None => construct [ctx] kwargs st
  | Some _ => (Raised TypeError, st)
  end.
Proof.
  destruct (kwargs !! "ctx") as [v|] eqn:Hk.
  - unfold cli, click.command, click.argument, click.pass_context. simpl.
    unfold cli_def. by rewrite (bind_cli_clash _ _ _ Hk).
  - by rewrite cli_forwards.
Qed.

End Runs.

Lemma count_super_app (meth : string) (t u : list event) :
  count_super meth (t ++ u) = count_super meth t + count_super meth u.
Proof. unfold count_super. by rewrite filter_app, length_app. Qed.

(** ** The constructor and the command *)

Section Constructor.

Context {H : Host}.

(** C3: the command is named after the service tag and declares one
    parameter, the positional string argument [title]; its callback, called
    with the context and the parsed keywords, is the constructor call on the
    same context and the same keywords (a keyword named [ctx] cannot be
    passed next to the positional context: Python rejects that call), and
    with the keyword [title] the value returned is the new instance, once
    the base initializer has returned. *)
Theorem cli_registered_and_forwards :
  click.name cli = "SERVICE_TAG" /\
  click.params cli = [click.Param click.Argument "title" HStr] /\
  (forall (ctx : PyVal) (kwargs : gmap string PyVal) (st : State),
     click.callback cli ctx kwargs st =
     match kwargs !! "ctx" with
     | None => construct [ctx] kwargs st
     | Some _ => (Raised TypeError, st)
     end) /\
  (forall (ctx title : PyVal) (st : State),
     click.callback cli ctx {["title" := title]} st =
     let a := length (heap st) in
     let h0 := heap st ++ [Obj "SERVICE_TAG" {["title" := title]}] in
     let '(r, (h, hs)) := Service___init__ a ctx (h0, host st) in
     (after_super r (VRef a),
      St h hs (trace st ++ [EvNew "SERVICE_TAG" a; EvSetAttr a "title" title;
                            EvSuper "__init__" a [ctx]]))).
Proof.
  split; [reflexivity|]. split; [reflexivity|]. split.
  - apply cli_callback_run.
  - intros ctx title st.
    rewrite cli_forwards by (by rewrite lookup_singleton_ne).
    apply construct_bound with (rest := ∅). apply bind_init_keyword.
Qed.

(** C4: [SERVICE_TAG(ctx, t)] stores [t] as [self.title] on the new
    instance, then calls [Service.__init__] with [ctx], once: the base
    initializer runs on a heap where the instance has [title = t], and the
    trace gains the assignment followed by one call of the base. *)
Theorem constructor_stores_then_defers (ctx : PyVal) (t : string) (st : State) :
  let a := length (heap st) in
  let h0 := heap st ++ [Obj "SERVICE_TAG" {["title" := VStr t]}] in
  let st' := (construct [ctx; VStr t] ∅ st).2 in
  get_attr a "title" h0 = Some (VStr t) /\
  construct [ctx; VStr t] ∅ st =
    (let '(r, (h, hs)) := Service___init__ a ctx (h0, host st) in
     (after_super r (VRef a),
      St h hs (trace st ++ [EvNew "SERVICE_TAG" a; EvSetAttr a "title" (VStr t);
                            EvSuper "__init__" a [ctx]]))) /\
  count_super "__init__" (trace st') = count_super "__init__" (trace st) + 1.
Proof.
  intros a h0 st'.
  assert (Hrun := construct_bound [ctx; VStr t] ∅ ∅ ctx (VStr t) st
                    (bind_init_positional ctx (VStr t))).
  split; [|split].
  - unfold get_attr, h0, a. rewrite list_lookup_middle by reflexivity.
    simpl. apply lookup_singleton_eq.
  - exact Hrun.
  - unfold st'. rewrite Hrun. simpl.
    destruct (Service___init__ _ ctx _) as [r [h hs]]. simpl.
    by rewrite count_super_app.
Qed.

(** C10: in [__init__], run on an instance of the heap, [self.title] is
    assigned before [Service.__init__] is called: the heap the base
    initializer receives has the attribute set, and on the trace the
    assignment precedes the call. *)
Theorem title_assigned_before_base_init
    (self : addr) (ctx title : PyVal) (st : State) (o : obj) :
  heap st !! self = Some o ->
  let h0 := set_attr self "title" title (heap st) in
  get_attr self "title" h0 = Some title /\
  exists r h hs,
    Service___init__ self ctx (h0, host st) = (r, (h, hs)) /\
    __init__ self ctx title st =
      (after_super r VNone,
       St h hs (trace st ++ [EvSetAttr self "title" title;
                             EvSuper "__init__" self [ctx]])).
Proof.
  intros Ho h0. split.
  - by apply get_set_attr with (o := o).
  - subst h0. rewrite init_run. cbv zeta.
    destruct (Service___init__ self ctx _) as [r [h hs]].
    exists r, h, hs. split; reflexivity.
Qed.

End Constructor.

(** Over a base initializer that leaves the instance alone, the title is
    still there when the constructor has returned. *)
Example constructed_instance_quiet_host :
  let run := @construct quiet_host [VInt 7; VStr "x"] ∅ (@empty_state quiet_host tt) in
  run.1 = Normal (VRef 0) /\
  get_attr 0 "title" (heap run.2) = Some (VStr "x") /\
  instance_of (heap run.2) (VRef 0) "SERVICE_TAG" = true.
Proof. vm_compute. repeat split. Qed.

Lemma title_assigned_before_base_init_witness :
  let st := @St quiet_host [Obj "SERVICE_TAG" ∅] tt [] in
  let h0 := set_attr 0 "title" (VStr "x") (heap st) in
  get_attr 0 "title" h0 = Some (VStr "x") /\
  exists r h hs,
    Service___init__ 0 (VInt 7) (h0, host st) = (r, (h, hs)) /\
    __init__ 0 (VInt 7) (VStr "x") st =
      (after_super r VNone,
       St h hs (trace st ++ [EvSetAttr 0 "title" (VStr "x");
                             EvSuper "__init__" 0 [VInt 7]])).
Proof.
  intros st.
  apply (@title_assigned_before_base_init quiet_host 0 (VInt 7) (VStr "x") st
           (Obj "SERVICE_TAG" ∅)).
  reflexivity.
Defined.

(** ** The authentication hook *)

Section Authenticate.

Context {H : Host}.

(** C9: whatever the arguments, [authenticate] checks nothing itself: it
    calls [Service.authenticate(cookies, credential)], once, and ends as the
    base ends, returning [None] when the base returns and raising only what
    the base raises; heap and host state are those the base leaves. *)
Theorem authenticate_delegates_once
    (self : addr) (cookies credential : PyVal) (st : State) :
  let base := Service_authenticate self cookies credential (heap st, host st) in
  let run := authenticate self cookies credential st in
  run.1 = after_super base.1 VNone /\
  heap run.2 = base.2.1 /\
  host run.2 = base.2.2 /\
  trace run.2 = trace st ++ [EvSuper "authenticate" self [cookies; credential]] /\
  count_super "authenticate" (trace run.2) = count_super "authenticate" (trace st) + 1.
Proof.
  intros base run. subst run base. rewrite authenticate_run.
  destruct (Service_authenticate self cookies credential _) as [r [h hs]].
  simpl. repeat split. by rewrite count_super_app.
Qed.

(** C2, as the code has it: [authenticate] has no check of its own for
    missing cookies or credentials.  It hands its arguments to the base
    class on the heap and host state it was called in, raises exactly what
    the base class raises there, and when the base returns, whatever the
    value, returns [None]; heap and host state are those the base leaves,
    and the call of the base is all the trace gains. *)
Theorem authenticate_raises_as_base
    (self : addr) (cookies credential : PyVal) (st : State) :
  let base := Service_authenticate self cookies credential (heap st, host st) in
  let run := authenticate self cookies credential st in
  (forall e, run.1 = Raised e <-> base.1 = Raised e) /\
  (forall v, base.1 = Normal v -> run.1 = Normal VNone) /\
  (forall v, run.1 = Normal v -> v = VNone /\ exists x, base.1 = Normal x) /\
  run = (after_super base.1 VNone,
         St base.2.1 base.2.2
            (trace st ++ [EvSuper "authenticate" self [cookies; credential]])).
Proof.
  intros base run. subst run base. rewrite authenticate_run.
  destruct (Service_authenticate self cookies credential _) as [r [h hs]].
  simpl. destruct r as [x|e']; simpl.
  - split; [intros e; split; discriminate|].
    split; [reflexivity|].
    split; [|reflexivity].
    intros v [= <-]. split; [reflexivity | by exists x].
  - split; [intros e; split; congruence|].
    split; [discriminate|].
    split; [discriminate | reflexivity].
Qed.

End Authenticate.

(** C2 fails as stated: over a base class that returns, [authenticate(None,
    None)] returns too. *)
Lemma authenticate_without_credentials_returns :
  ~ (forall (H : Host) (self : addr) (st : State),
       (authenticate self VNone VNone st).1 = Raised EnvironmentError).
Proof.
  intros Hc.
  specialize (Hc quiet_host 0 (@empty_state quiet_host tt)).
  vm_compute in Hc. discriminate Hc.
Qed.

(** Over a base class that insists on credentials the error does come, from
    the base. *)
Example authenticate_strict_host :
  (@authenticate strict_host 0 VNone VNone (@empty_state strict_host tt)).1
  = Raised EnvironmentError.
Proof. reflexivity. Qed.

(** ** The hooks left to the author *)

Section Hooks.

Context {H : Host}.

(** C5, as the code has it: for every title [get_chapters] returns [None]
    and changes nothing.  [None] is not a list, so it is outside the
    annotation [list[Chapter]]; the empty list, which the comment in the
    body leaves to the author to return, would be inside. *)
Theorem get_chapters_returns_None (self : addr) (title : PyVal) (st : State) :
  get_chapters self title st = (Normal VNone, st) /\
  returns m_get_chapters = Some (HList (HClass "Chapter")) /\
  conforms (heap st) (HList (HClass "Chapter")) VNone = false /\
  conforms (heap st) (HList (HClass "Chapter")) (VList []) = true.
Proof. repeat split. Qed.

(** C6, as the code has it: both DRM hooks return [None] for every
    challenge, title and track, and change nothing.  For the license hook
    [None] is within its annotation [Optional[Union[bytes, str]]]; for the
    certificate hook it is neither [bytes] nor [str]. *)
Theorem drm_hooks_return_None
    (self : addr) (challenge title track : PyVal) (st : State) :
  get_widevine_license self challenge title track st = (Normal VNone, st) /\
  returns_as (get_widevine_license self challenge title track)
    (HOptional (HUnion HBytes HStr)) st /\
  get_widevine_service_certificate self challenge title track st = (Normal VNone, st) /\
  conforms (heap st) (HUnion HBytes HStr) VNone = false.
Proof.
  split; [reflexivity|]. split; [|split; reflexivity].
  exists VNone. split; reflexivity.
Qed.

(** C8, as the code has it: every required hook returns [None] and changes
    nothing; [None] is outside the return annotation of each of them but
    [get_widevine_license], whose annotation is an [Optional]. *)
Theorem required_hooks_return_None (c : call) (st : State) :
  required (method_of c) = true ->
  invoke c st = (Normal VNone, st) /\
  exists t, returns (method_of c) = Some t /\
    conforms (heap st) t VNone = bool_decide (method_of c = m_get_widevine_license).
Proof.
  intros Hr. destruct c; simpl in Hr; try discriminate Hr;
    (split; [reflexivity | eexists; split; reflexivity]).
Qed.

End Hooks.

Lemma required_hooks_return_None_witness :
  required (method_of (Call_get_titles 0)) = true /\
  @invoke quiet_host (Call_get_titles 0) (@empty_state quiet_host tt)
  = (Normal VNone, @empty_state quiet_host tt) /\
  exists t, returns (method_of (Call_get_titles 0)) = Some t /\
    conforms [] t VNone = bool_decide (method_of (Call_get_titles 0) = m_get_widevine_license).
Proof.
  split; [reflexivity|].
  apply (@required_hooks_return_None quiet_host (Call_get_titles 0)
           (@empty_state quiet_host tt)).
  reflexivity.
Defined.

(** C5 fails as stated: what [get_chapters] returns is not a list. *)
Lemma get_chapters_returns_no_list :
  ~ (forall (H : Host) (self : addr) (title : PyVal) (st : State),
       returns_as (get_chapters self title) (HList (HClass "Chapter")) st).
Proof.
  intros Hc.
  destruct (Hc quiet_host 0 VNone (@empty_state quiet_host tt)) as [v [Hv Ht]].
  vm_compute in Hv. injection Hv as <-. vm_compute in Ht. discriminate Ht.
Qed.

(** C6 fails as stated: the certificate hook does not return [bytes] or
    [str]. *)
Lemma certificate_hook_returns_no_certificate :
  ~ (forall (H : Host) (self : addr) (challenge title track : PyVal) (st : State),
       returns_as (get_widevine_license self challenge title track)
         (HOptional (HUnion HBytes HStr)) st /\
       returns_as (get_widevine_service_certificate self challenge title track)
         (HUnion HBytes HStr) st).
Proof.
  intros Hc.
  destruct (Hc quiet_host 0 (VBytes []) VNone VNone (@empty_state quiet_host tt))
    as [_ [v [Hv Ht]]].
  vm_compute in Hv. injection Hv as <-. vm_compute in Ht. discriminate Ht.
Qed.

(** C8 fails as stated: the [None] that [get_widevine_license] returns
    agrees with its annotation. *)
Lemma license_hook_agrees_with_annotation :
  ~ (forall (H : Host) (c : call) (st : State),
       required (method_of c) = true ->
       invoke c st = (Normal VNone, st) /\
       forall t, returns (method_of c) = Some t ->
                 conforms (heap st) t VNone = false).
Proof.
  intros Hc.
  destruct (Hc quiet_host (Call_get_widevine_license 0 (VBytes []) VNone VNone)
              (@empty_state quiet_host tt) eq_refl) as [_ Ht].
  specialize (Ht _ eq_refl). vm_compute in Ht. discriminate Ht.
Qed.

(** ** Placeholders, and what the class itself touches *)

Section Frame.

Context {H : Host}.

Lemma construct_events (args : list PyVal) (kwargs : gmap string PyVal) (st : State) :
  exists evs, trace (construct args kwargs st).2 = trace st ++ evs /\
              forallb own_event evs = true.
Proof.
  destruct (bind_args ["ctx"; "title"] false args kwargs) as [[vs rest]|] eqn:Hb.
  - destruct vs as [|ctx [|title [|x vs]]];
      try (exists [EvNew "SERVICE_TAG" (length (heap st))];
           unfold construct, new, alloc, __name__;
           unfold mbind, M_bind, bind; simpl; rewrite Hb; by split).
    rewrite (construct_bound _ _ _ _ _ st Hb). cbv zeta.
    destruct (Service___init__ _ ctx _) as [r [h hs]]. simpl.
    eexists. split; reflexivity.
  - exists [EvNew "SERVICE_TAG" (length (heap st))].
    unfold construct, new, alloc, __name__.
    unfold mbind, M_bind, bind; simpl; rewrite Hb; by split.
Qed.

(** C1, as the code has it: the body of every method but [cli], [__init__]
    and [authenticate] is a placeholder: called on any arguments in any
    state it returns [None] and leaves heap, host state and trace as they
    were (nothing assigned, nothing constructed, no call of the base). *)
Theorem placeholders_do_nothing (c : call) (st : State) :
  has_statements (method_of c) = false ->
  invoke c st = (Normal VNone, st).
Proof.
  intros Hs. destruct c; simpl in Hs; try discriminate Hs; apply placeholder_run.
Qed.

(** C7, as the code has it: all the code of the class does to the world is
    to make a [SERVICE_TAG] instance (in [cli]), to assign [title] (in
    [__init__]) and to call the base [__init__] and [authenticate]; it never
    makes an object of another class, and every other operation leaves the
    whole state as it was. *)
Theorem class_frame (c : call) (st : State) :
  let st' := (invoke c st).2 in
  (exists evs, trace st' = trace st ++ evs /\ forallb own_event evs = true) /\
  (if has_statements (method_of c) then True else st' = st).
Proof.
  intros st'. subst st'. split.
  - destruct c; unfold invoke;
      try (exists []; split; [by rewrite app_nil_r | reflexivity]).
    + rewrite cli_callback_run. destruct (kwargs !! "ctx").
      * exists []. split; [by rewrite app_nil_r | reflexivity].
      * apply construct_events.
    + rewrite init_run. cbv zeta.
      destruct (Service___init__ self ctx _) as [r [h hs]]. simpl.
      eexists. split; reflexivity.
    + rewrite authenticate_run.
      destruct (Service_authenticate self cookies credential _) as [r [h hs]]. simpl.
      eexists. split; reflexivity.
  - destruct c; simpl; try exact I; reflexivity.
Qed.

End Frame.

Lemma placeholders_do_nothing_witness :
  has_statements (method_of (Call_get_session 0)) = false /\
  @invoke quiet_host (Call_get_session 0) (@empty_state quiet_host tt)
  = (Normal VNone, @empty_state quiet_host tt).
Proof.
  split; [reflexivity|].
  apply (@placeholders_do_nothing quiet_host (Call_get_session 0)
           (@empty_state quiet_host tt)).
  reflexivity.
Defined.

(** C1 fails as stated: [cli] is no placeholder, it constructs an instance
    and returns it. *)
Lemma cli_is_no_placeholder :
  ~ (forall (H : Host) (c : call) (st : State), invoke c st = (Normal VNone, st)).
Proof.
  intros Hc.
  specialize (Hc quiet_host (Call_cli (VInt 7) {["title" := VStr "x"]})
                (@empty_state quiet_host tt)).
  apply (f_equal fst) in Hc. vm_compute in Hc. discriminate Hc.
Qed.

(** C7 fails as stated: [__init__] changes the instance, it assigns
    [self.title]. *)
Lemma init_changes_the_instance :
  ~ (forall (H : Host) (c : call) (st : State), touches_nothing st (invoke c st).2).
Proof.
  intros Hc.
  destruct (Hc quiet_host (Call___init__ 0 (VInt 7) (VStr "x"))
              (@St quiet_host [Obj "SERVICE_TAG" ∅] tt [])) as [Hh _].
  apply (f_equal (get_attr 0 "title")) in Hh. vm_compute in Hh. discriminate Hh.
Qed.

(** * Further properties of the class *)

(** ** Which calls of the constructor fit *)

Lemma bind_init_all_keywords (ctx title : PyVal) :
  bind_args ["ctx"; "title"] false [] {["ctx" := ctx; "title" := title]}
  = Some ([ctx; title], ∅).
Proof.
  unfold bind_args, bind_named.
  rewrite lookup_insert_eq. simpl.
  rewrite delete_insert_eq, delete_singleton_ne by discriminate.
  rewrite lookup_singleton_eq. simpl.
  rewrite delete_singleton_eq. simpl.
  by rewrite bool_decide_eq_true_2.
Qed.

Lemma accepted_binds (args : list PyVal) (kwargs : gmap string PyVal)
    (ctx title : PyVal) :
  accepted args kwargs ctx title ->
  bind_args ["ctx"; "title"] false args kwargs = Some ([ctx; title], ∅).
Proof.
  intros [[-> ->] | [[-> ->] | [-> ->]]].
  - apply bind_init_positional.
  - apply bind_init_keyword.
  - apply bind_init_all_keywords.
Qed.

Lemma only_key (k : string) (v : PyVal) (m : gmap string PyVal) :
  m !! k = Some v -> delete k m = ∅ -> m = {[k := v]}.
Proof.
  intros Hk Hd. rewrite <- (insert_delete_id m k v Hk), Hd.
  apply insert_empty.
Qed.

Lemma binds_accepted (args : list PyVal) (kwargs rest : gmap string PyVal)
    (vs : list PyVal) :
  bind_args ["ctx"; "title"] false args kwargs = Some (vs, rest) ->
  exists ctx title, vs = [ctx; title] /\ accepted args kwargs ctx title.
Proof.
  unfold bind_args, bind_named. intros Hb.
  destruct args as [|a [|b [|c args]]].
  - destruct (kwargs !! "ctx") as [c|] eqn:Hc; simpl in Hb; [|discriminate].
    destruct (delete "ctx" kwargs !! "title") as [t|] eqn:Ht; simpl in Hb; [|discriminate].
    case_bool_decide as He; simpl in Hb; [|discriminate].
    injection Hb as <- <-. exists c, t. split; [reflexivity|].
    right; right. split; [reflexivity|].
    rewrite <- (insert_delete_id kwargs "ctx" c Hc).
    by rewrite (only_key "title" t _ Ht He).
  - destruct (kwargs !! "ctx") eqn:Hc; [discriminate|].
    destruct (kwargs !! "title") as [t|] eqn:Ht; simpl in Hb; [|discriminate].
    case_bool_decide as He; simpl in Hb; [|discriminate].
    injection Hb as <- <-. exists a, t. split; [reflexivity|].
    right; left. split; [reflexivity|]. by apply only_key.
  - destruct (kwargs !! "ctx") eqn:Hc; [discriminate|].
    destruct (kwargs !! "title") eqn:Ht; [discriminate|]. simpl in Hb.
    case_bool_decide as He; simpl in Hb; [|discriminate].
    injection Hb as <- <-. exists a, b. split; [reflexivity|].
    left. by split.
  - destruct (kwargs !! "ctx") eqn:Hc; [discriminate|].
    destruct (kwargs !! "title") eqn:Ht; discriminate.
Qed.

Section Calls.

Context {H : Host}.

Lemma construct_accepted (args : list PyVal) (kwargs : gmap string PyVal)
    (ctx title : PyVal) (st : State) :
  accepted args kwargs ctx title ->
  construct args kwargs st = run_accepted ctx title st.
Proof.
  intros Ha. apply (construct_bound _ _ ∅). by apply accepted_binds.
Qed.

Lemma construct_rejected (args : list PyVal) (kwargs : gmap string PyVal)
    (st : State) :
  (forall ctx title, ~ accepted args kwargs ctx title) ->
  construct args kwargs st = run_rejected st.
Proof.
  intros Hn. unfold construct, new, alloc, __name__, run_rejected.
  unfold mbind, M_bind, bind. simpl.
  destruct (bind_args ["ctx"; "title"] false args kwargs) as [[vs rest]|] eqn:Hb;
    [|reflexivity].
  destruct (binds_accepted _ _ _ _ Hb) as (ctx & title & -> & Ha).
  by destruct (Hn ctx title).
Qed.

End Calls.

Lemma accepted_one_positional (a ctx title : PyVal) (kwargs : gmap string PyVal) :
  accepted [a] kwargs ctx title -> ctx = a /\ kwargs = {["title" := title]}.
Proof.
  intros [[Ha _] | [[Ha Hk] | [Ha _]]]; try discriminate Ha.
  injection Ha as ->. by split.
Qed.

Section Signature.

Context {H : Host}.

Lemma constructor_run_cases
    (args : list PyVal) (kwargs : gmap string PyVal) (st : State) :
  (exists ctx title, accepted args kwargs ctx title /\
                     construct args kwargs st = run_accepted ctx title st) \/
  ((forall ctx title, ~ accepted args kwargs ctx title) /\
   construct args kwargs st = run_rejected st).
Proof.
  destruct (bind_args ["ctx"; "title"] false args kwargs) as [[vs rest]|] eqn:Hb.
  - left. destruct (binds_accepted _ _ _ _ Hb) as (ctx & title & _ & Ha).
    exists ctx, title. split; [exact Ha | by apply construct_accepted].
  - right.
    assert (Hn : forall ctx title, ~ accepted args kwargs ctx title).
    { intros ctx title Ha. rewrite (accepted_binds _ _ _ _ Ha) in Hb. discriminate Hb. }
    split; [exact Hn | by apply construct_rejected].
Qed.

(** X1: a call of the constructor either gives a context and a title, by
    position or by keyword, and then runs [__init__] and the base
    initializer; or it is a [TypeError], raised before anything is assigned
    and before the base initializer is reached, with the host state and the
    objects of the heap as they were. *)
Theorem constructor_accepts_ctx_and_title
    (args : list PyVal) (kwargs : gmap string PyVal) (st : State) :
  (exists ctx title, accepted args kwargs ctx title /\
                     construct args kwargs st = run_accepted ctx title st) \/
  ((forall ctx title, ~ accepted args kwargs ctx title) /\
   construct args kwargs st = run_rejected st).
Proof.
  destruct (bind_args ["ctx"; "title"] false args kwargs) as [[vs rest]|] eqn:Hb.
  - left. destruct (binds_accepted _ _ _ _ Hb) as (ctx & title & _ & Ha).
    exists ctx, title. split; [exact Ha | by apply construct_accepted].
  - right.
    assert (Hn : forall ctx title, ~ accepted args kwargs ctx title).
    { intros ctx title Ha. rewrite (accepted_binds _ _ _ _ Ha) in Hb. discriminate Hb. }
    split; [exact Hn | by apply construct_rejected].
Qed.

(** X2: the command returns a value exactly when the keywords are the title
    and nothing else and the base initializer returns; the value is then the
    reference to the instance just made. *)
Theorem cli_returns_iff
    (ctx v : PyVal) (kwargs : gmap string PyVal) (st : State) :
  (click.callback cli ctx kwargs st).1 = Normal v <->
  exists title,
    kwargs = {["title" := title]} /\
    v = VRef (length (heap st)) /\
    exists x,
      (Service___init__ (length (heap st)) ctx
         (heap st ++ [Obj "SERVICE_TAG" {["title" := title]}], host st)).1 = Normal x.
Proof.
  rewrite cli_callback_run. split.
  - destruct (kwargs !! "ctx") eqn:Hc; [discriminate|].
    destruct (bind_args ["ctx"; "title"] false [ctx] kwargs) as [[vs rest]|] eqn:Hb.
    + destruct (binds_accepted _ _ _ _ Hb) as (c & title & _ & Ha).
      rewrite (construct_accepted _ _ _ _ st Ha).
      destruct (accepted_one_positional _ _ _ _ Ha) as [-> ->].
      unfold run_accepted. cbv zeta.
      destruct (Service___init__ _ _ _) as [r [h hs]] eqn:Hs. simpl.
      destruct r as [x|e]; simpl; [|discriminate].
      intros [= <-]. exists title.
      split; [reflexivity|]. split; [reflexivity|]. exists x. by rewrite Hs.
    + rewrite construct_rejected; [discriminate|].
      intros c title Ha. rewrite (accepted_binds _ _ _ _ Ha) in Hb. discriminate Hb.
  - intros (title & -> & -> & x & Hx).
    rewrite lookup_singleton_ne by discriminate.
    rewrite (construct_accepted [ctx] _ ctx title st) by (right; left; by split).
    unfold run_accepted. cbv zeta.
    destruct (Service___init__ _ ctx _) as [r [h hs]]. simpl in *.
    by rewrite Hx.
Qed.

(** X3: the parameters the command declares are those the constructor
    takes: with keywords for exactly the declared names, the callback binds
    them and runs the constructor. *)
Theorem declared_parameters_fit_constructor
    (ctx : PyVal) (kwargs : gmap string PyVal) (st : State) :
  dom kwargs = list_to_set (click.p_name <$> click.params cli) ->
  exists title,
    kwargs = {["title" := title]} /\
    click.callback cli ctx kwargs st = run_accepted ctx title st.
Proof.
  intros Hd. simpl in Hd. rewrite union_empty_r_L in Hd.
  destruct (dom_singleton_inv_L _ _ Hd) as [title ->].
  exists title. split; [reflexivity|].
  rewrite cli_callback_run, lookup_singleton_ne by discriminate.
  apply construct_accepted. right; left. by split.
Qed.

(** X4: the title may be given by position or by keyword, and the context
    too: the three calls, and the command called with the keyword [title],
    run alike. *)
Theorem call_forms_agree (ctx title : PyVal) (st : State) :
  construct [ctx] {["title" := title]} st = construct [ctx; title] ∅ st /\
  construct [] {["ctx" := ctx; "title" := title]} st = construct [ctx; title] ∅ st /\
  click.callback cli ctx {["title" := title]} st = construct [ctx; title] ∅ st.
Proof.
  rewrite cli_callback_run, lookup_singleton_ne by discriminate.
  rewrite (construct_accepted [ctx; title] ∅ ctx title st) by (left; by split).
  rewrite (construct_accepted [ctx] _ ctx title st) by (right; left; by split).
  rewrite (construct_accepted [] _ ctx title st) by (right; right; by split).
  done.
Qed.

End Signature.

Lemma declared_parameters_fit_constructor_witness :
  exists title,
    ({["title" := VStr "x"]} : gmap string PyVal) = {["title" := title]} /\
    click.callback (@cli quiet_host) (VInt 7) {["title" := VStr "x"]}
      (@empty_state quiet_host tt)
    = run_accepted (VInt 7) title (@empty_state quiet_host tt).
Proof.
  apply (@declared_parameters_fit_constructor quiet_host (VInt 7)
           {["title" := VStr "x"]} (@empty_state quiet_host tt)).
  simpl. rewrite union_empty_r_L. apply dom_singleton_L.
Defined.

(** ** Where exceptions come from *)

Section Exceptions.

Context {H : Host}.

Lemma raised_origin (c : call) (st : State) (e : PyExc) :
  (invoke c st).1 = Raised e ->
  match c with
  | Call_cli ctx kwargs =>
      e = TypeError \/
      exists title,
        kwargs = {["title" := title]} /\
        (Service___init__ (length (heap st)) ctx
           (heap st ++ [Obj "SERVICE_TAG" {["title" := title]}], host st)).1 = Raised e
  | Call___init__ self ctx title =>
      (Service___init__ self ctx (set_attr self "title" title (heap st), host st)).1
      = Raised e
  | Call_authenticate self cookies credential =>
      (Service_authenticate self cookies credential (heap st, host st)).1 = Raised e
  | _ => False
  end.
Proof.
  destruct c; unfold invoke;
    try (change ((Normal VNone : outcome PyVal, st).1 = Raised e -> False);
         discriminate).
  - rewrite cli_callback_run.
    destruct (kwargs !! "ctx") eqn:Hc; [intros [= <-]; by left|].
    destruct (bind_args ["ctx"; "title"] false [ctx] kwargs) as [[vs rest]|] eqn:Hb.
    + destruct (binds_accepted _ _ _ _ Hb) as (c & title & _ & Ha).
      rewrite (construct_accepted _ _ _ _ st Ha).
      destruct (accepted_one_positional _ _ _ _ Ha) as [-> ->].
      unfold run_accepted. cbv zeta.
      destruct (Service___init__ _ _ _) as [r [h hs]] eqn:Hs. simpl.
      destruct r as [x|e']; simpl; [discriminate|].
      intros [= <-]. right. exists title. split; [reflexivity|]. by rewrite Hs.
    + rewrite construct_rejected; [intros [= <-]; by left|].
      intros c title Ha. rewrite (accepted_binds _ _ _ _ Ha) in Hb. discriminate Hb.
  - rewrite init_run. cbv zeta.
    destruct (Service___init__ self ctx _) as [r [h hs]]. simpl.
    by destruct r.
  - rewrite authenticate_run.
    destruct (Service_authenticate self cookies credential _) as [r [h hs]]. simpl.
    by destruct r.
Qed.


(** X6: the class raises no [EnvironmentError] of its own: over a base class
    whose [__init__] and [authenticate] never raise it, no method of the
    class does, whatever the arguments. *)
Theorem no_EnvironmentError_of_its_own (c : call) (st : State) :
  (forall self ctx w, (Service___init__ self ctx w).1 <> Raised EnvironmentError) ->
  (forall self cookies credential w,
     (Service_authenticate self cookies credential w).1 <> Raised EnvironmentError) ->
  (invoke c st).1 <> Raised EnvironmentError.
Proof.
  intros Hi Ha Hr. apply raised_origin in Hr.
  destruct c; try exact Hr.
  - destruct Hr as [Hr | (title & _ & Hr)]; [discriminate Hr | by apply Hi in Hr].
  - by apply Hi in Hr.
  - by apply Ha in Hr.
Qed.

End Exceptions.


Lemma no_EnvironmentError_of_its_own_witness :
  (@invoke quiet_host (Call_authenticate 0 VNone VNone) (@empty_state quiet_host tt)).1
  <> Raised EnvironmentError.
Proof.
  apply (@no_EnvironmentError_of_its_own quiet_host).
  - intros self ctx w. simpl. discriminate.
  - intros self cookies credential w. simpl. discriminate.
Defined.

(** ** What [__init__] leaves alone *)

Lemma set_attr_length (a : addr) (n : string) (v : PyVal) (h : Heap) :
  length (set_attr a n v h) = length h.
Proof. unfold set_attr. destruct (h !! a); [apply length_insert | reflexivity]. Qed.

Lemma set_attr_cls (a b : addr) (n : string) (v : PyVal) (h : Heap) :
  cls <$> set_attr a n v h !! b = cls <$> h !! b.
Proof.
  unfold set_attr. destruct (h !! a) as [o|] eqn:Ho; [|reflexivity].
  destruct (decide (a = b)) as [<-|Hne].
  - rewrite list_lookup_insert_eq by (eapply lookup_lt_Some; eassumption).
    by rewrite Ho.
  - by rewrite list_lookup_insert_ne.
Qed.

Lemma get_attr_set_attr_other (a b : addr) (n m : string) (v : PyVal) (h : Heap) :
  b <> a \/ m <> n -> get_attr b m (set_attr a n v h) = get_attr b m h.
Proof.
  intros Hd. unfold get_attr, set_attr.
  destruct (h !! a) as [o|] eqn:Ho; [|reflexivity].
  destruct (decide (a = b)) as [<-|Hne].
  - rewrite list_lookup_insert_eq by (eapply lookup_lt_Some; eassumption).
    rewrite Ho. simpl. destruct Hd as [Hd|Hd]; [done|].
    by rewrite lookup_insert_ne.
  - by rewrite list_lookup_insert_ne.
Qed.

Section InitFrame.

Context {H : Host}.

(** X7: when [__init__] hands over to the base initializer, the heap
    differs from the one it was called on in the title of [self] and in
    nothing else: no object is added or removed, every object has its
    class, and every other attribute of every object reads as before.  The
    state [__init__] ends in is the one the base initializer leaves. *)
Theorem init_assigns_only_title (self : addr) (ctx title : PyVal) (st : State) :
  let h0 := set_attr self "title" title (heap st) in
  let base := Service___init__ self ctx (h0, host st) in
  heap (__init__ self ctx title st).2 = base.2.1 /\
  host (__init__ self ctx title st).2 = base.2.2 /\
  length h0 = length (heap st) /\
  (forall a, cls <$> h0 !! a = cls <$> heap st !! a) /\
  (forall a n, a <> self \/ n <> "title" ->
               get_attr a n h0 = get_attr a n (heap st)).
Proof.
  intros h0 base. subst base h0. rewrite init_run. cbv zeta.
  destruct (Service___init__ self ctx _) as [r [h hs]]. simpl.
  split; [reflexivity|]. split; [reflexivity|].
  split; [apply set_attr_length|].
  split; [intros a; apply set_attr_cls|].
  intros a n Hd. by apply get_attr_set_attr_other.
Qed.

End InitFrame.

(** ** Calls of the base class, method by method *)

Section BaseCalls.

Context {H : Host}.

(** X8: only [authenticate] calls the base [authenticate], once; the
    constructor never does, by command or by [__init__].  The base
    [__init__] is called once by [__init__], at most once by the command
    (not at all when the keywords do not fit), and by no other method. *)
Theorem base_calls_by_method (c : call) (st : State) :
  let st' := (invoke c st).2 in
  count_super "authenticate" (trace st') =
    count_super "authenticate" (trace st)
    + (if bool_decide (method_of c = m_authenticate) then 1 else 0) /\
  match method_of c with
  | m___init__ =>
      count_super "__init__" (trace st') = count_super "__init__" (trace st) + 1
  | m_cli =>
      count_super "__init__" (trace st) <= count_super "__init__" (trace st') /\
      count_super "__init__" (trace st') <= count_super "__init__" (trace st) + 1
  | _ => count_super "__init__" (trace st') = count_super "__init__" (trace st)
  end.
Proof.
  intros st'. subst st'.
  destruct c; unfold invoke;
    try (change ((fun s : State =>
                    count_super "authenticate" (trace s)
                    = count_super "authenticate" (trace st) + 0 /\
                    count_super "__init__" (trace s) = count_super "__init__" (trace st))
                   st);
         split; [lia | reflexivity]).
  - rewrite cli_callback_run. destruct (kwargs !! "ctx"); simpl; [lia|].
    destruct (constructor_run_cases [ctx] kwargs st)
      as [(c & title & _ & ->) | [_ ->]].
    + unfold run_accepted. cbv zeta.
      destruct (Service___init__ _ c _) as [r [h hs]]. simpl.
      rewrite !count_super_app. simpl.
      change (count_super "authenticate" [_; _; _]) with 0.
      change (count_super "__init__" [_; _; _]) with 1. lia.
    + unfold run_rejected. simpl. rewrite !count_super_app.
      change (count_super "authenticate" [_]) with 0.
      change (count_super "__init__" [_]) with 0. lia.
  - rewrite init_run. cbv zeta.
    destruct (Service___init__ self ctx _) as [r [h hs]]. simpl.
    rewrite !count_super_app.
    change (count_super "authenticate" [_; _]) with 0.
    change (count_super "__init__" [_; _]) with 1. lia.
  - rewrite authenticate_run.
    destruct (Service_authenticate self cookies credential _) as [r [h hs]]. simpl.
    rewrite !count_super_app.
    change (count_super "authenticate" [_]) with 1.
    change (count_super "__init__" [_]) with 0. lia.
Qed.

End BaseCalls.

(** ** Values returned and annotations *)

Section Annotations.

Context {H : Host}.

(** X9: the command returns what its annotation says, an instance of
    [SERVICE_TAG], whenever the base initializer returns and leaves the new
    instance in the heap with its class. *)
Theorem cli_returns_an_instance
    (ctx title x : PyVal) (st : State) (h : Heap) (hs : HostState) (o : obj) :
  Service___init__ (length (heap st)) ctx
    (heap st ++ [Obj "SERVICE_TAG" {["title" := title]}], host st)
  = (Normal x, (h, hs)) ->
  h !! length (heap st) = Some o ->
  cls o = "SERVICE_TAG" ->
  returns m_cli = Some (HClass "SERVICE_TAG") /\
  returns_as (click.callback cli ctx {["title" := title]}) (HClass "SERVICE_TAG") st.
Proof.
  intros Hs Ho Hc. split; [reflexivity|].
  exists (VRef (length (heap st))).
  rewrite cli_callback_run, lookup_singleton_ne by discriminate.
  rewrite (construct_accepted [ctx] _ ctx title st) by (right; left; by split).
  unfold run_accepted. cbv zeta. rewrite Hs. simpl.
  split; [reflexivity|]. unfold addr. rewrite Ho, Hc.
  apply bool_decide_eq_true_2. apply list_elem_of_here.
Qed.

(** X10: of the two optional hooks, [get_session] returns [None], which is
    no [requests.Session] as its annotation has it, and changes nothing;
    [authenticate], when it returns, returns [None] as annotated, whatever
    the base class returned. *)
Theorem optional_hooks_results
    (self : addr) (cookies credential : PyVal) (st : State) :
  get_session self st = (Normal VNone, st) /\
  returns m_get_session = Some (HClass "Session") /\
  conforms (heap st) (HClass "Session") VNone = false /\
  returns m_authenticate = Some HNone /\
  match authenticate self cookies credential st with
  | (Normal v, st') => v = VNone /\ conforms (heap st') HNone v = true
  | (Raised _, _) => True
  end.
Proof.
  repeat (split; [reflexivity|]).
  rewrite authenticate_run.
  destruct (Service_authenticate self cookies credential _) as [r [h hs]].
  destruct r; simpl; [by split | exact I].
Qed.

End Annotations.

Lemma cli_returns_an_instance_witness :
  returns m_cli = Some (HClass "SERVICE_TAG") /\
  returns_as (click.callback (@cli quiet_host) (VInt 7) {["title" := VStr "x"]})
    (HClass "SERVICE_TAG") (@empty_state quiet_host tt).
Proof.
  apply (@cli_returns_an_instance quiet_host (VInt 7) (VStr "x") VNone
           (@empty_state quiet_host tt)
           [Obj "SERVICE_TAG" {["title" := VStr "x"]}] tt
           (Obj "SERVICE_TAG" {["title" := VStr "x"]})).
  - reflexivity.
  - reflexivity.
  - reflexivity.
Defined.
